(** * Atlas-Web: a shallow embedding of the state handling of [src/src/App.tsx]

    The React component [App] keeps its state in [useState] hooks and
    changes it only from event handlers.  A handler is modelled as a
    function from the current state to the next state together with the
    effects it performs on the outside world (an [alert], a [console.log],
    a [fitBounds] command sent to the Leaflet map).  The updates a handler
    queues with [setX] are applied in the order they are queued, which is
    how React applies a batch of updater functions. *)

From stdpp Require Import base gmap strings list fin_maps.
From Stdlib Require Import ZArith QArith.

Open Scope Z_scope.

(** ** Certification settings and the density-suppression tables *)

(** A JS object literal [{ [key: string]: number }] read with [obj[key]].
    The callers of [updateDensitySuppression] pass only the values of the
    SAIL [<select>] options ("SAIL 2", "SAIL 3", "SAIL 4", "SAIL 6"), so
    only own properties of the literal are ever read; the model keeps the
    own properties in a finite map. *)
Definition withoutParachute : gmap string Z :=
  list_to_map [("SAIL 2", 0); ("SAIL 3", 5); ("SAIL 4", 50); ("SAIL 6", 5000)].

Definition withParachute : gmap string Z :=
  list_to_map [("SAIL 2", 5); ("SAIL 3", 50); ("SAIL 4", 500)].

(** [tbl[key] || 0]: an absent key gives [undefined], which is falsy; a
    present value [0] is falsy too and also gives [0]. *)
Definition lookup_or_zero (tbl : gmap string Z) (key : string) : Z :=
  match tbl !! key with
  | Some v => if Z.eqb v 0 then 0 else v
  | None => 0
  end.

(** The value [updateDensitySuppression sail hasParachute] computes
    ([const density = hasParachute ? withParachute[sail] || 0
                                   : withoutParachute[sail] || 0]). *)
Definition density (sail : string) (hasParachute : bool) : Z :=
  if hasParachute then lookup_or_zero withParachute sail
  else lookup_or_zero withoutParachute sail.

(** The table [density] reads for a given parachute setting. *)
Definition selected_table (hasParachute : bool) : gmap string Z :=
  if hasParachute then withParachute else withoutParachute.

Record CertSettings := mkCert {
  sail : string;
  hasParachute : bool;
  densitySuppression : Z;
  relaxation : Z
}.

(** [const [certSettings, setCertSettings] = useState({...})]. *)
Definition certSettings0 : CertSettings :=
  mkCert "SAIL 2" false 0 750.

(** [updateDensitySuppression]: the updater it queues,
    [prev => ({ ...prev, densitySuppression: density })]. *)
Definition updateDensitySuppression (s : string) (p : bool)
    (prev : CertSettings) : CertSettings :=
  mkCert (sail prev) (hasParachute prev) (density s p) (relaxation prev).

Example density_sail2_false : density "SAIL 2" false = 0.
Proof. reflexivity. Qed.

Example density_sail6_true : density "SAIL 6" true = 0.
Proof. reflexivity. Qed.

(** The options the SAIL [<select>] renders: "SAIL 6" only while
    [!certSettings.hasParachute]. *)
Definition sail_options (p : bool) : list string :=
  ["SAIL 2"; "SAIL 3"; "SAIL 4"] ++ (if negb p then ["SAIL 6"] else []).

(** The SAIL [<select>] [onChange]: it queues
    [prev => ({ ...prev, sail: newSail })] and then calls
    [updateDensitySuppression(newSail, certSettings.hasParachute)], where
    [certSettings] is the state of the render that installed the handler. *)
Definition onSailChange (cs : CertSettings) (newSail : string) : CertSettings :=
  let set_sail prev :=
    mkCert newSail (hasParachute prev) (densitySuppression prev) (relaxation prev) in
  updateDensitySuppression newSail (hasParachute cs) (set_sail cs).

(** The parachute checkbox [onChange]: it queues
    [prev => ({ ...prev, hasParachute })] with [hasParachute = e.target.checked]
    and then calls [updateDensitySuppression(certSettings.sail, hasParachute)].
    No other check is made. *)
Definition onParachuteChange (cs : CertSettings) (checked : bool) : CertSettings :=
  let set_parachute prev :=
    mkCert (sail prev) checked (densitySuppression prev) (relaxation prev) in
  updateDensitySuppression (sail cs) checked (set_parachute cs).

(** The "Controlled Area" input [onChange]:
    [setCertSettings({ ...certSettings, relaxation: Number(e.target.value) })]. *)
Definition onRelaxationChange (cs : CertSettings) (v : Z) : CertSettings :=
  mkCert (sail cs) (hasParachute cs) (densitySuppression cs) v.

(** The user-driven steps on the certification settings.  A change event of
    the [<select>] carries one of the rendered options; clicking the
    checkbox flips [checked]. *)
Inductive cert_step : CertSettings -> CertSettings -> Prop :=
| cert_step_sail (cs : CertSettings) (newSail : string) :
    newSail ∈ sail_options (hasParachute cs) ->
    cert_step cs (onSailChange cs newSail)
| cert_step_parachute (cs : CertSettings) :
    cert_step cs (onParachuteChange cs (negb (hasParachute cs)))
| cert_step_relaxation (cs : CertSettings) (v : Z) :
    cert_step cs (onRelaxationChange cs v).

Definition cert_reachable (cs : CertSettings) : Prop :=
  rtc cert_step certSettings0 cs.

(** The invariant: the derived field agrees with the tables. *)
Definition density_consistent (cs : CertSettings) : Prop :=
  densitySuppression cs = density (sail cs) (hasParachute cs).

Lemma density_consistent_init : density_consistent certSettings0.
Proof. reflexivity. Qed.

Lemma cert_step_preserves (cs cs' : CertSettings) :
  cert_step cs cs' -> density_consistent cs -> density_consistent cs'.
Proof.
  unfold density_consistent.
  intros Hstep Hinv; destruct Hstep; simpl; auto.
Qed.

Lemma cert_rtc_preserves (cs cs' : CertSettings) :
  rtc cert_step cs cs' -> density_consistent cs -> density_consistent cs'.
Proof.
  induction 1 as [c|c1 c2 c3 Hs Hr IH]; intros Hinv; [exact Hinv|].
  apply IH. exact (cert_step_preserves c1 c2 Hs Hinv).
Qed.

(** The initial-settings trace used by claim C2 and by the witness of C4:
    select "SAIL 6", then tick the parachute checkbox. *)
Lemma sail6_parachute_trace :
  rtc cert_step certSettings0 (mkCert "SAIL 6" true 0 750).
Proof.
  eapply rtc_l.
  { apply (cert_step_sail certSettings0 "SAIL 6"). simpl. set_solver. }
  eapply rtc_l.
  { apply (cert_step_parachute (onSailChange certSettings0 "SAIL 6")). }
  apply rtc_refl.
Qed.

(** ** Routes, coordinates and Leaflet bounds *)

(** A coordinate [[lat, lon]]; numbers are read as exact rationals. *)
Definition LatLng : Type := (Q * Q)%type.

Record Route := mkRoute {
  name : string;
  source : LatLng;
  destination : LatLng
}.

(** [Math.min] / [Math.max] on two coordinates. *)
Definition qmin (a b : Q) : Q := if Qle_bool a b then a else b.
Definition qmax (a b : Q) : Q := if Qle_bool a b then b else a.

(** A Leaflet [LatLngBounds]: its south-west and north-east corners. *)
Record LatLngBounds := mkBounds {
  south : Q; west : Q; north : Q; east : Q
}.

(** [LatLngBounds.extend(latlng)]: the first point sets both corners; every
    further point moves them with [Math.min] and [Math.max]. *)
Definition bounds_extend (b : option LatLngBounds) (p : LatLng) : option LatLngBounds :=
  match b with
  | None => Some (mkBounds p.1 p.2 p.1 p.2)
  | Some b =>
      Some (mkBounds (qmin p.1 (south b)) (qmin p.2 (west b))
                     (qmax p.1 (north b)) (qmax p.2 (east b)))
  end.

(** [L.latLngBounds(latlngs)]: extends an empty bounds by each point. *)
Definition latLngBounds (pts : list LatLng) : option LatLngBounds :=
  fold_left bounds_extend pts None.

(** A point lies in a box. *)
Definition box_contains (b : LatLngBounds) (p : LatLng) : Prop :=
  Qle (south b) p.1 /\ Qle p.1 (north b) /\ Qle (west b) p.2 /\ Qle p.2 (east b).

(** Box [b] lies inside box [b']. *)
Definition box_within (b b' : LatLngBounds) : Prop :=
  Qle (south b') (south b) /\ Qle (north b) (north b') /\
  Qle (west b') (west b) /\ Qle (east b) (east b').

(** ** The application state and its effects *)

(** The state of [App] the claims are about: the [useState] hooks
    [selectedRoute], [showAddRoute], [isAnalyzing], [certSettings], and the
    [routes] exposed by [useRoutes()] (a [Record<string, Route>]). *)
Record AppState := mkApp {
  selectedRoute : string;
  showAddRoute : bool;
  isAnalyzing : bool;
  routes : gmap string Route;
  certSettings : CertSettings
}.

Definition set_selectedRoute (v : string) (st : AppState) : AppState :=
  mkApp v (showAddRoute st) (isAnalyzing st) (routes st) (certSettings st).
Definition set_showAddRoute (v : bool) (st : AppState) : AppState :=
  mkApp (selectedRoute st) v (isAnalyzing st) (routes st) (certSettings st).
Definition set_isAnalyzing (v : bool) (st : AppState) : AppState :=
  mkApp (selectedRoute st) (showAddRoute st) v (routes st) (certSettings st).
Definition set_routes (v : gmap string Route) (st : AppState) : AppState :=
  mkApp (selectedRoute st) (showAddRoute st) (isAnalyzing st) v (certSettings st).

(** What a handler or an effect does outside the component state. *)
Inductive Effect :=
| Alert (msg : string)
| ConsoleLog (msg : string) (coords : list (list LatLng))
| FitBounds (b : LatLngBounds) (padding : Z * Z).

(** A string is truthy in JS when it is not empty. *)
Definition truthy_string (s : string) : bool :=
  match s with EmptyString => false | _ => true end.

(** Modelled from the spec: [addRoute] of the route persistence hook
    [useRoutes] (not in the sources), which "inserts or overwrites the entry
    for name". *)
Definition addRoute (nm : string) (src dst : LatLng)
    (rs : gmap string Route) : gmap string Route :=
  <[nm := mkRoute nm src dst]> rs.

(** Modelled from the spec: [deleteRoute] of the route persistence hook
    [useRoutes] (not in the sources), which "removes it if present (no-op
    otherwise)". *)
Definition deleteRoute (nm : string) (rs : gmap string Route) : gmap string Route :=
  delete nm rs.

(** [handleAddRoute(name, source, destination)]. *)
Definition handleAddRoute (nm : string) (src dst : LatLng) (st : AppState)
    : AppState * list Effect :=
  (set_selectedRoute nm
     (set_showAddRoute false (set_routes (addRoute nm src dst (routes st)) st)), []).

(** [handleDeleteRoute()]. *)
Definition handleDeleteRoute (st : AppState) : AppState * list Effect :=
  if truthy_string (selectedRoute st) then
    (set_selectedRoute "" (set_routes (deleteRoute (selectedRoute st) (routes st)) st), [])
  else (st, []).

(** [handleAnalyzePopulation()]. *)
Definition handleAnalyzePopulation (st : AppState) : AppState * list Effect :=
  if negb (truthy_string (selectedRoute st)) then
    (st, [Alert "Please select a route first"])
  else (set_isAnalyzing true st, []).

(** The layers the Leaflet draw plugin can report ([L.Rectangle] extends
    [L.Polygon], which extends [L.Polyline]; [L.Circle] extends
    [L.CircleMarker]). *)
Inductive Layer :=
| LPolygon (rings : list (list LatLng))
| LRectangle (rings : list (list LatLng))
| LPolyline (pts : list LatLng)
| LMarker (p : LatLng)
| LCircleMarker (p : LatLng) (radius : Q)
| LCircle (p : LatLng) (radius : Q).

(** [layer instanceof L.Polygon || layer instanceof L.Rectangle]. *)
Definition is_polygon_or_rectangle (l : Layer) : bool :=
  match l with LPolygon _ | LRectangle _ => true | _ => false end.

(** [layer.getLatLngs()] on a polygon or rectangle: its rings. *)
Definition getLatLngs (l : Layer) : list (list LatLng) :=
  match l with
  | LPolygon r | LRectangle r => r
  | LPolyline pts => [pts]
  | _ => []
  end.

(** [handleDrawComplete(layer)]. *)
Definition handleDrawComplete (l : Layer) (st : AppState) : AppState * list Effect :=
  let logs :=
    if is_polygon_or_rectangle l
    then [ConsoleLog "Drawn shape coordinates:" (getLatLngs l)] else [] in
  (set_isAnalyzing false st, logs).

(** [{isAnalyzing && <DrawingTools onDrawComplete={handleDrawComplete} />}]. *)
Definition drawingToolsMounted (st : AppState) : bool := isAnalyzing st.

(** The body of the [useEffect] in [MapUpdater]
    ([if (selectedRoute && routes[selectedRoute])]).  Bounds built from two
    points always exist, so the inner [None] branch is never taken. *)
Definition mapUpdater (sel : string) (rs : gmap string Route) : list Effect :=
  if truthy_string sel then
    match rs !! sel with
    | Some r =>
        match latLngBounds [source r; destination r] with
        | Some b => [FitBounds b (50, 50)]
        | None => []
        end
    | None => []
    end
  else [].

(** ** The whole component: UI events *)

Definition set_certSettings (v : CertSettings) (st : AppState) : AppState :=
  mkApp (selectedRoute st) (showAddRoute st) (isAnalyzing st) (routes st) v.

(** The events the rendered controls of [App] can fire. *)
Inductive UIEvent :=
| EvSelectRoute (v : string)          (* "Select Flight Route" <select> *)
| EvOpenAddRoute                      (* "Add Route" button *)
| EvCloseAddRoute                     (* AddRouteModal onClose *)
| EvSubmitAddRoute (nm : string) (src dst : LatLng)  (* AddRouteModal onAddRoute *)
| EvClickDelete                       (* "Delete" button *)
| EvClickAnalyze                      (* "Analyze Populations" button *)
| EvDrawComplete (l : Layer)          (* DrawingTools onDrawComplete *)
| EvSailChange (v : string)           (* SAIL <select> *)
| EvParachuteToggle                   (* Parachute checkbox *)
| EvRelaxationChange (v : Z).         (* "Controlled Area" input *)

(** The route <select> renders the placeholder [<option value="">] and one
    option per key of [routes] ([Object.entries(routes)]). *)
Definition route_option (rs : gmap string Route) (v : string) : bool :=
  match v with
  | EmptyString => true
  | _ => match rs !! v with Some _ => true | None => false end
  end.

(** One event on the current state: [None] when the control cannot fire it
    (an option that is not rendered, a [disabled] button, the drawing tools
    or the modal not mounted), otherwise the next state and the effects.
    [DrawingTools] is mounted only while [isAnalyzing]; the Delete and
    Analyze buttons carry [disabled={!selectedRoute}]; [AddRouteModal]
    submits only while [isOpen={showAddRoute}]. *)
Definition app_handle (ev : UIEvent) (st : AppState) : option (AppState * list Effect) :=
  match ev with
  | EvSelectRoute v =>
      if route_option (routes st) v then Some (set_selectedRoute v st, []) else None
  | EvOpenAddRoute => Some (set_showAddRoute true st, [])
  | EvCloseAddRoute => Some (set_showAddRoute false st, [])
  | EvSubmitAddRoute nm src dst =>
      if showAddRoute st then Some (handleAddRoute nm src dst st) else None
  | EvClickDelete =>
      if truthy_string (selectedRoute st) then Some (handleDeleteRoute st) else None
  | EvClickAnalyze =>
      if truthy_string (selectedRoute st) then Some (handleAnalyzePopulation st) else None
  | EvDrawComplete l =>
      if drawingToolsMounted st then Some (handleDrawComplete l st) else None
  | EvSailChange v =>
      if bool_decide (v ∈ sail_options (hasParachute (certSettings st)))
      then Some (set_certSettings (onSailChange (certSettings st) v) st, [])
      else None
  | EvParachuteToggle =>
      Some (set_certSettings
              (onParachuteChange (certSettings st) (negb (hasParachute (certSettings st)))) st, [])
  | EvRelaxationChange v =>
      Some (set_certSettings (onRelaxationChange (certSettings st) v) st, [])
  end.

(** A sequence of events, collecting the effects in order; [None] as soon as
    one event cannot fire. *)
Fixpoint run_events (evs : list UIEvent) (st : AppState) : option (AppState * list Effect) :=
  match evs with
  | [] => Some (st, [])
  | ev :: rest =>
      match app_handle ev st with
      | None => None
      | Some (st1, ef1) =>
          match run_events rest st1 with
          | None => None
          | Some (st2, ef2) => Some (st2, ef1 ++ ef2)
          end
      end
  end.

(** The first render: no selection, modal closed, not analyzing, the initial
    certification settings; [rs0] is whatever [useRoutes()] returns first. *)
Definition app_init (rs0 : gmap string Route) : AppState :=
  mkApp "" false false rs0 certSettings0.

Definition app_reachable (st : AppState) : Prop :=
  exists rs0 evs effs, run_events evs (app_init rs0) = Some (st, effs).

(** The selection is empty or names a stored route. *)
Definition selection_ok (st : AppState) : Prop :=
  selectedRoute st = "" \/ is_Some (routes st !! selectedRoute st).

(** What the map draws for the selected route
    ([{selectedRoute && routes[selectedRoute] && (<>...</>)}]). *)
Inductive MapItem :=
| Marker (title : string) (pos : LatLng)
| RouteLine (positions : list LatLng).

Definition routeOverlay (st : AppState) : list MapItem :=
  if truthy_string (selectedRoute st) then
    match routes st !! selectedRoute st with
    | Some r =>
        [Marker "Take-off Location" (source r);
         Marker "Landing Location" (destination r);
         RouteLine [source r; destination r]]
    | None => []
    end
  else [].

(** [mapLayer : 'satellite' | 'streets' | 'hybrid'] and the three
    conditional [<TileLayer>] elements. *)
Inductive MapLayer := Satellite | Streets | Hybrid.

Definition MapLayer_eqb (a b : MapLayer) : bool :=
  match a, b with
  | Satellite, Satellite | Streets, Streets | Hybrid, Hybrid => true
  | _, _ => false
  end.

Definition tileLayers (mapLayer : MapLayer) : list (string * string) :=
  (if MapLayer_eqb mapLayer Satellite
   then [("https://mt1.google.com/vt/lyrs=s&x={x}&y={y}&z={z}", "Google Satellite")] else []) ++
  (if MapLayer_eqb mapLayer Streets
   then [("https://mt1.google.com/vt/lyrs=m&x={x}&y={y}&z={z}", "Google Streets")] else []) ++
  (if MapLayer_eqb mapLayer Hybrid
   then [("https://mt1.google.com/vt/lyrs=y&x={x}&y={y}&z={z}", "Google Hybrid")] else []).

(** ** Lemmas on [Math.min], [Math.max] and two-point bounds *)

Lemma qmin_le_l (a b : Q) : Qle (qmin a b) a.
Proof.
  unfold qmin. destruct (Qle_bool a b) eqn:E; [apply Qle_refl|].
  apply Qlt_le_weak, Qnot_le_lt. intros H. apply Qle_bool_iff in H. congruence.
Qed.

Lemma qmin_le_r (a b : Q) : Qle (qmin a b) b.
Proof.
  unfold qmin. destruct (Qle_bool a b) eqn:E; [apply Qle_bool_iff; exact E|].
  apply Qle_refl.
Qed.

Lemma qmin_glb (x a b : Q) : Qle x a -> Qle x b -> Qle x (qmin a b).
Proof. unfold qmin. destruct (Qle_bool a b); auto. Qed.

Lemma qmax_ge_l (a b : Q) : Qle a (qmax a b).
Proof.
  unfold qmax. destruct (Qle_bool a b) eqn:E; [apply Qle_bool_iff; exact E|].
  apply Qle_refl.
Qed.

Lemma qmax_ge_r (a b : Q) : Qle b (qmax a b).
Proof.
  unfold qmax. destruct (Qle_bool a b) eqn:E; [apply Qle_refl|].
  apply Qlt_le_weak, Qnot_le_lt. intros H. apply Qle_bool_iff in H. congruence.
Qed.

Lemma qmax_lub (x a b : Q) : Qle a x -> Qle b x -> Qle (qmax a b) x.
Proof. unfold qmax. destruct (Qle_bool a b); auto. Qed.

Lemma latLngBounds_two (p q : LatLng) :
  latLngBounds [p; q] =
  Some (mkBounds (qmin q.1 p.1) (qmin q.2 p.2) (qmax q.1 p.1) (qmax q.2 p.2)).
Proof. reflexivity. Qed.

(** The two-point bounds contain both points and lie inside every box that
    contains both. *)
Lemma latLngBounds_two_smallest (p q : LatLng) :
  box_contains (mkBounds (qmin q.1 p.1) (qmin q.2 p.2) (qmax q.1 p.1) (qmax q.2 p.2)) p /\
  box_contains (mkBounds (qmin q.1 p.1) (qmin q.2 p.2) (qmax q.1 p.1) (qmax q.2 p.2)) q /\
  (forall b', box_contains b' p -> box_contains b' q ->
     box_within (mkBounds (qmin q.1 p.1) (qmin q.2 p.2) (qmax q.1 p.1) (qmax q.2 p.2)) b').
Proof.
  unfold box_contains, box_within; simpl.
  split; [|split].
  - repeat split; auto using qmin_le_r, qmax_ge_r.
  - repeat split; auto using qmin_le_l, qmax_ge_l.
  - intros b' (Hp1 & Hp2 & Hp3 & Hp4) (Hq1 & Hq2 & Hq3 & Hq4).
    repeat split; auto using qmin_glb, qmax_lub.
Qed.

(** ** Lemmas on UI event sequences *)

(** A property of states kept by every event is kept by every sequence. *)
Lemma run_events_preserves (P : AppState -> Prop) :
  (forall ev st st' ef, P st -> app_handle ev st = Some (st', ef) -> P st') ->
  forall evs st st' ef, P st -> run_events evs st = Some (st', ef) -> P st'.
Proof.
  intros Hstep evs. induction evs as [|ev rest IH]; intros st st' ef Hp Hrun; simpl in Hrun.
  - congruence.
  - destruct (app_handle ev st) as [[st1 ef1]|] eqn:E1; [|discriminate].
    destruct (run_events rest st1) as [[st2 ef2]|] eqn:E2; [|discriminate].
    injection Hrun as <- <-. eapply IH; [|exact E2]. eapply Hstep; eauto.
Qed.

Lemma app_handle_selection_ok (ev : UIEvent) (st st' : AppState) (ef : list Effect) :
  selection_ok st -> app_handle ev st = Some (st', ef) -> selection_ok st'.
Proof.
  unfold selection_ok.
  intros Hok H. destruct ev; simpl in H.
  - destruct (route_option (routes st) v) eqn:Ev; [|discriminate].
    injection H as <- <-. simpl. destruct v as [|c rest]; [left; reflexivity|].
    right. simpl in Ev. destruct (routes st !! String c rest); [eauto|discriminate].
  - injection H as <- <-. exact Hok.
  - injection H as <- <-. exact Hok.
  - destruct (showAddRoute st); [|discriminate].
    injection H as <- <-. right. simpl. unfold addRoute. rewrite lookup_insert_eq. eauto.
  - destruct (truthy_string (selectedRoute st)) eqn:Et; [|discriminate].
    unfold handleDeleteRoute in H. rewrite Et in H.
    injection H as <- <-. left. reflexivity.
  - destruct (truthy_string (selectedRoute st)) eqn:Et; [|discriminate].
    unfold handleAnalyzePopulation in H. rewrite Et in H.
    injection H as <- <-. exact Hok.
  - destruct (drawingToolsMounted st); [|discriminate].
    injection H as <- <-. exact Hok.
  - case_bool_decide; [|discriminate]. injection H as <- <-. exact Hok.
  - injection H as <- <-. exact Hok.
  - injection H as <- <-. exact Hok.
Qed.

Lemma app_reachable_selection_ok (st : AppState) : app_reachable st -> selection_ok st.
Proof.
  intros (rs0 & evs & ef & Hrun).
  eapply (run_events_preserves selection_ok app_handle_selection_ok); [|exact Hrun].
  left. reflexivity.
Qed.

Lemma app_handle_no_alert (ev : UIEvent) (st st' : AppState) (ef : list Effect) (m : string) :
  app_handle ev st = Some (st', ef) -> Alert m ∉ ef.
Proof.
  intros H. destruct ev; simpl in H.
  - destruct (route_option (routes st) v); [|discriminate]. injection H as <- <-. set_solver.
  - injection H as <- <-. set_solver.
  - injection H as <- <-. set_solver.
  - destruct (showAddRoute st); [|discriminate]. injection H as <- <-. set_solver.
  - destruct (truthy_string (selectedRoute st)) eqn:Et; [|discriminate].
    unfold handleDeleteRoute in H. rewrite Et in H. injection H as <- <-. set_solver.
  - destruct (truthy_string (selectedRoute st)) eqn:Et; [|discriminate].
    unfold handleAnalyzePopulation in H. rewrite Et in H. injection H as <- <-. set_solver.
  - destruct (drawingToolsMounted st); [|discriminate].
    unfold handleDrawComplete in H. injection H as <- <-.
    destruct (is_polygon_or_rectangle l); set_solver.
  - case_bool_decide; [|discriminate]. injection H as <- <-. set_solver.
  - injection H as <- <-. set_solver.
  - injection H as <- <-. set_solver.
Qed.


(** ** Theorems *)

(** Claim C1: [density "SAIL 4" false = 50], [density "SAIL 3" true = 50],
    and every category string that is not a key of the table selected by the
    parachute flag gives [0]. *)
Theorem density_table_values :
  density "SAIL 4" false = 50 /\
  density "SAIL 3" true = 50 /\
  (forall (s : string) (p : bool), selected_table p !! s = None -> density s p = 0).
Proof.
  split; [reflexivity|]. split; [reflexivity|].
  intros s p Hnone. unfold density, lookup_or_zero.
  destruct p; simpl in Hnone; rewrite Hnone; reflexivity.
Qed.

Lemma density_table_values_witness :
  selected_table true !! "SAIL 6" = None /\ density "SAIL 6" true = 0.
Proof.
  split; [reflexivity|].
  apply (proj2 (proj2 density_table_values) "SAIL 6" true). reflexivity.
Defined.

(** Claim C2 (the code does not establish it): starting from the initial
    settings, choosing "SAIL 6" (rendered while the parachute is off) and
    then ticking the parachute checkbox reaches a state with
    [sail = "SAIL 6"] and [hasParachute = true]; its density is [0]. *)
Theorem sail6_with_parachute_reachable :
  cert_reachable (mkCert "SAIL 6" true 0 750).
Proof. exact sail6_parachute_trace. Qed.

(** Claim C4: in every state reachable from the initial settings by sail,
    parachute and relaxation changes, [densitySuppression] equals the table
    lookup for the current [sail] and [hasParachute]. *)
Theorem density_invariant (cs : CertSettings) :
  cert_reachable cs -> densitySuppression cs = density (sail cs) (hasParachute cs).
Proof.
  unfold cert_reachable. intros Hr.
  apply (cert_rtc_preserves certSettings0 cs Hr density_consistent_init).
Qed.

Lemma density_invariant_witness :
  cert_reachable (mkCert "SAIL 6" true 0 750) /\
  densitySuppression (mkCert "SAIL 6" true 0 750) = density "SAIL 6" true.
Proof.
  split; [exact sail6_parachute_trace|].
  exact (density_invariant (mkCert "SAIL 6" true 0 750) sail6_parachute_trace).
Defined.

(** Claim C3: with no route selected, "Analyze Populations" shows an alert
    and leaves the state as it was (so [isAnalyzing] is not set); with a
    route selected it sets [isAnalyzing] and shows nothing. *)
Theorem analyze_population_guard (st : AppState) :
  (selectedRoute st = "" ->
     handleAnalyzePopulation st = (st, [Alert "Please select a route first"])) /\
  (selectedRoute st <> "" ->
     handleAnalyzePopulation st = (set_isAnalyzing true st, []) /\
     isAnalyzing (set_isAnalyzing true st) = true).
Proof.
  unfold handleAnalyzePopulation.
  split; intros H.
  - rewrite H. reflexivity.
  - destruct (selectedRoute st) as [|c rest] eqn:E; [congruence|].
    split; reflexivity.
Qed.

Lemma analyze_population_guard_witness :
  handleAnalyzePopulation (mkApp "" false false ∅ certSettings0)
  = (mkApp "" false false ∅ certSettings0, [Alert "Please select a route first"]) /\
  handleAnalyzePopulation (mkApp "r1" false false ∅ certSettings0)
  = (mkApp "r1" false true ∅ certSettings0, []).
Proof.
  split.
  - apply (proj1 (analyze_population_guard (mkApp "" false false ∅ certSettings0))).
    reflexivity.
  - apply (proj2 (analyze_population_guard (mkApp "r1" false false ∅ certSettings0))).
    discriminate.
Defined.

(** Claim C5: with a route name selected, Delete removes that name from the
    route store and clears the selection. *)
Theorem delete_route_clears_selection (st : AppState) :
  selectedRoute st <> "" ->
  handleDeleteRoute st =
    (set_selectedRoute "" (set_routes (delete (selectedRoute st) (routes st)) st), []) /\
  routes (handleDeleteRoute st).1 !! selectedRoute st = None /\
  selectedRoute (handleDeleteRoute st).1 = "".
Proof.
  intros H. unfold handleDeleteRoute.
  destruct (truthy_string (selectedRoute st)) eqn:E.
  - simpl. split; [reflexivity|]. split; [|reflexivity].
    unfold deleteRoute. apply lookup_delete_eq.
  - destruct (selectedRoute st); [congruence|discriminate].
Qed.

Lemma delete_route_clears_selection_witness :
  handleDeleteRoute
    (mkApp "r1" false false {[ "r1" := mkRoute "r1" (0, 0)%Q (1, 1)%Q ]} certSettings0)
  = (mkApp "" false false ∅ certSettings0, []).
Proof.
  rewrite (proj1 (delete_route_clears_selection
    (mkApp "r1" false false {[ "r1" := mkRoute "r1" (0, 0)%Q (1, 1)%Q ]} certSettings0)
    ltac:(discriminate))).
  simpl. unfold set_selectedRoute, set_routes. simpl.
  rewrite delete_singleton. reflexivity.
Defined.

(** Claim C6: while analyzing, completing a rectangle or polygon clears
    [isAnalyzing]. *)
Theorem draw_complete_clears_analyzing (l : Layer) (st : AppState) :
  isAnalyzing st = true ->
  is_polygon_or_rectangle l = true ->
  isAnalyzing (handleDrawComplete l st).1 = false.
Proof. intros _ _. reflexivity. Qed.

Lemma draw_complete_clears_analyzing_witness :
  isAnalyzing
    (handleDrawComplete (LRectangle [[(0, 0)%Q; (0, 1)%Q; (1, 1)%Q; (1, 0)%Q]])
       (mkApp "r1" false true ∅ certSettings0)).1 = false.
Proof.
  apply draw_complete_clears_analyzing; reflexivity.
Defined.

(** Claim C7, as stated, fails: the route store may hold a route under the
    empty name, and [MapUpdater] treats the empty selection as no selection
    and sends no [fitBounds]. *)
Lemma mapUpdater_empty_name_counterexample :
  ({[ "" := mkRoute "" (0, 0)%Q (1, 1)%Q ]} : gmap string Route) !! "" = Some (mkRoute "" (0, 0)%Q (1, 1)%Q) /\
  mapUpdater "" {[ "" := mkRoute "" (0, 0)%Q (1, 1)%Q ]} = [].
Proof. split; reflexivity. Qed.

(** Claim C7 (amended): when the selected route name is non-empty and
    resolves to a route, [MapUpdater] sends exactly one [fitBounds] with
    padding [[50, 50]] whose box contains the source and the destination
    and lies inside every box that contains both. *)
Theorem mapUpdater_fits_selected_route (sel : string) (rs : gmap string Route) (r : Route) :
  sel <> "" ->
  rs !! sel = Some r ->
  exists b, mapUpdater sel rs = [FitBounds b (50, 50)] /\
    box_contains b (source r) /\ box_contains b (destination r) /\
    (forall b', box_contains b' (source r) -> box_contains b' (destination r) ->
       box_within b b').
Proof.
  intros Hsel Hr. unfold mapUpdater.
  destruct sel as [|c rest]; [congruence|]. cbn [truthy_string]. rewrite Hr.
  rewrite latLngBounds_two.
  eexists; split; [reflexivity|].
  apply latLngBounds_two_smallest.
Qed.

Lemma mapUpdater_fits_selected_route_witness :
  exists b, mapUpdater "r1" {[ "r1" := mkRoute "r1" (0, 0)%Q (1, 2)%Q ]}
              = [FitBounds b (50, 50)] /\
    box_contains b (0, 0)%Q /\ box_contains b (1, 2)%Q /\
    (forall b', box_contains b' (0, 0)%Q -> box_contains b' (1, 2)%Q -> box_within b b').
Proof.
  exact (mapUpdater_fits_selected_route "r1" {[ "r1" := mkRoute "r1" (0, 0)%Q (1, 2)%Q ]}
           (mkRoute "r1" (0, 0)%Q (1, 2)%Q) ltac:(discriminate) ltac:(reflexivity)).
Defined.

(** Claim C8: with an empty selection, or one that names no route,
    [MapUpdater] sends nothing to the map. *)
Theorem mapUpdater_noop (sel : string) (rs : gmap string Route) :
  sel = "" \/ rs !! sel = None -> mapUpdater sel rs = [].
Proof.
  intros [H|H]; unfold mapUpdater.
  - subst. reflexivity.
  - destruct (truthy_string sel); [rewrite H|]; reflexivity.
Qed.

Lemma mapUpdater_noop_witness :
  mapUpdater "r2" {[ "r1" := mkRoute "r1" (0, 0)%Q (1, 2)%Q ]} = [] /\
  mapUpdater "" {[ "r1" := mkRoute "r1" (0, 0)%Q (1, 2)%Q ]} = [].
Proof.
  split; apply mapUpdater_noop; [right|left]; reflexivity.
Defined.

(** Claim C9: adding a route stores it under its name, closes the modal and
    selects it. *)
Theorem add_route_selects_new (nm : string) (src dst : LatLng) (st : AppState) :
  routes (handleAddRoute nm src dst st).1 = <[nm := mkRoute nm src dst]> (routes st) /\
  routes (handleAddRoute nm src dst st).1 !! nm = Some (mkRoute nm src dst) /\
  showAddRoute (handleAddRoute nm src dst st).1 = false /\
  selectedRoute (handleAddRoute nm src dst st).1 = nm.
Proof.
  simpl. unfold addRoute.
  split; [reflexivity|]. split; [apply lookup_insert_eq|]. split; reflexivity.
Qed.

(** Claim C10: for every completed layer the handler clears [isAnalyzing],
    which unmounts the drawing tools; for a layer that is neither a polygon
    nor a rectangle nothing is logged. *)
Theorem draw_complete_any_layer (l : Layer) (st : AppState) :
  isAnalyzing (handleDrawComplete l st).1 = false /\
  drawingToolsMounted (handleDrawComplete l st).1 = false /\
  (is_polygon_or_rectangle l = false -> (handleDrawComplete l st).2 = []).
Proof.
  unfold handleDrawComplete, drawingToolsMounted. simpl.
  split; [reflexivity|]. split; [reflexivity|].
  intros H. rewrite H. reflexivity.
Qed.

Lemma draw_complete_any_layer_witness :
  (handleDrawComplete (LMarker (0, 0)%Q) (mkApp "r1" false true ∅ certSettings0)).2 = [].
Proof.
  apply (proj2 (proj2 (draw_complete_any_layer (LMarker (0, 0)%Q)
                         (mkApp "r1" false true ∅ certSettings0)))).
  reflexivity.
Defined.

(** ** Further properties of [App] *)

(** A state reached from the first render by opening the modal and adding
    route "r1"; used by the witnesses below. *)
Definition demo_state : AppState :=
  mkApp "r1" false false (<["r1" := mkRoute "r1" (0, 0)%Q (1, 2)%Q]> ∅) certSettings0.

Lemma demo_state_reachable : app_reachable demo_state.
Proof.
  exists ∅, [EvOpenAddRoute; EvSubmitAddRoute "r1" (0, 0)%Q (1, 2)%Q], [].
  reflexivity.
Qed.

(** In every state reachable by UI events, the selection is empty or names
    a route of the store. *)
Theorem reachable_selection_resolves (st : AppState) :
  app_reachable st ->
  selectedRoute st = "" \/ exists r, routes st !! selectedRoute st = Some r.
Proof.
  intros Hr. destruct (app_reachable_selection_ok st Hr) as [H|[r H]]; eauto.
Qed.

Lemma reachable_selection_resolves_witness :
  app_reachable demo_state /\
  (selectedRoute demo_state = "" \/
   exists r, routes demo_state !! selectedRoute demo_state = Some r).
Proof.
  split; [exact demo_state_reachable|].
  exact (reachable_selection_resolves demo_state demo_state_reachable).
Defined.

(** No sequence of UI events ever raises an alert: the Analyze button is
    disabled whenever no route is selected. *)
Theorem run_events_never_alerts (evs : list UIEvent) (st st' : AppState)
    (ef : list Effect) (m : string) :
  run_events evs st = Some (st', ef) -> Alert m ∉ ef.
Proof.
  revert st st' ef. induction evs as [|ev rest IH]; intros st st' ef Hrun; simpl in Hrun.
  - injection Hrun as <- <-. set_solver.
  - destruct (app_handle ev st) as [[st1 ef1]|] eqn:E1; [|discriminate].
    destruct (run_events rest st1) as [[st2 ef2]|] eqn:E2; [|discriminate].
    injection Hrun as <- <-. rewrite elem_of_app. intros [Hin|Hin].
    + exact (app_handle_no_alert ev st st1 ef1 m E1 Hin).
    + exact (IH st1 st2 ef2 E2 Hin).
Qed.

Lemma run_events_never_alerts_witness :
  run_events [EvClickAnalyze] demo_state = Some (set_isAnalyzing true demo_state, []) /\
  Alert "Please select a route first" ∉ ([] : list Effect).
Proof.
  split; [reflexivity|].
  exact (run_events_never_alerts [EvClickAnalyze] demo_state (set_isAnalyzing true demo_state)
           [] "Please select a route first" eq_refl).
Defined.

(** In every reachable state, [MapUpdater] sends nothing when no route is
    selected and otherwise exactly one [fitBounds] (padding 50) of the
    selected route's source and destination. *)
Theorem reachable_mapUpdater_fits_iff_selected (st : AppState) :
  app_reachable st ->
  (selectedRoute st = "" /\ mapUpdater (selectedRoute st) (routes st) = []) \/
  (exists r b, routes st !! selectedRoute st = Some r /\
     latLngBounds [source r; destination r] = Some b /\
     mapUpdater (selectedRoute st) (routes st) = [FitBounds b (50, 50)]).
Proof.
  intros Hr. destruct (app_reachable_selection_ok st Hr) as [H|[r H]].
  - left. rewrite H. split; reflexivity.
  - destruct (selectedRoute st) as [|c rest] eqn:Es.
    + left. split; reflexivity.
    + right. exists r. rewrite latLngBounds_two. eexists. split; [exact H|].
      split; [reflexivity|]. unfold mapUpdater. cbn [truthy_string].
      rewrite H, latLngBounds_two. reflexivity.
Qed.

Lemma reachable_mapUpdater_fits_iff_selected_witness :
  app_reachable demo_state /\
  mapUpdater "r1" (routes demo_state) =
    [FitBounds (mkBounds (qmin 1 0) (qmin 2 0) (qmax 1 0) (qmax 2 0)) (50, 50)].
Proof.
  split; [exact demo_state_reachable|].
  destruct (reachable_mapUpdater_fits_iff_selected demo_state demo_state_reachable)
    as [[H _]|(r & b & Hr & Hb & Hm)]; [discriminate|].
  simpl in Hr. injection Hr as <-. simpl in Hb. injection Hb as <-. exact Hm.
Defined.

(** In every reachable state, the map draws the take-off marker at the
    source, the landing marker at the destination and the line between them
    when a route is selected, and nothing of the route otherwise. *)
Theorem reachable_routeOverlay (st : AppState) :
  app_reachable st ->
  (selectedRoute st = "" /\ routeOverlay st = []) \/
  (exists r, routes st !! selectedRoute st = Some r /\
     routeOverlay st = [Marker "Take-off Location" (source r);
                        Marker "Landing Location" (destination r);
                        RouteLine [source r; destination r]]).
Proof.
  intros Hr. unfold routeOverlay.
  destruct (app_reachable_selection_ok st Hr) as [H|[r H]].
  - left. rewrite H. split; reflexivity.
  - destruct (selectedRoute st) as [|c rest] eqn:Es.
    + left. split; reflexivity.
    + right. exists r. split; [exact H|]. cbn [truthy_string]. rewrite H. reflexivity.
Qed.

Lemma reachable_routeOverlay_witness :
  app_reachable demo_state /\
  routeOverlay demo_state = [Marker "Take-off Location" (0, 0)%Q;
                             Marker "Landing Location" (1, 2)%Q;
                             RouteLine [(0, 0)%Q; (1, 2)%Q]].
Proof.
  split; [exact demo_state_reachable|].
  destruct (reachable_routeOverlay demo_state demo_state_reachable)
    as [[H _]|(r & Hr & Ho)]; [discriminate|].
  simpl in Hr. injection Hr as <-. exact Ho.
Defined.

(** [isAnalyzing] changes only through the Analyze button (to [true]) and
    draw completion (to [false]). *)
Theorem isAnalyzing_changes_only_by_analyze_or_draw (ev : UIEvent) (st st' : AppState)
    (ef : list Effect) :
  app_handle ev st = Some (st', ef) ->
  isAnalyzing st' <> isAnalyzing st ->
  (ev = EvClickAnalyze /\ isAnalyzing st' = true) \/
  (exists l, ev = EvDrawComplete l /\ isAnalyzing st' = false).
Proof.
  intros H Hne. destruct ev; simpl in H.
  - destruct (route_option (routes st) v); [|discriminate].
    injection H as <- <-. exfalso; apply Hne; reflexivity.
  - injection H as <- <-. exfalso; apply Hne; reflexivity.
  - injection H as <- <-. exfalso; apply Hne; reflexivity.
  - destruct (showAddRoute st); [|discriminate]. injection H as <- <-. exfalso; apply Hne; reflexivity.
  - destruct (truthy_string (selectedRoute st)) eqn:Et; [|discriminate].
    unfold handleDeleteRoute in H. rewrite Et in H. injection H as <- <-. exfalso; apply Hne; reflexivity.
  - destruct (truthy_string (selectedRoute st)) eqn:Et; [|discriminate].
    unfold handleAnalyzePopulation in H. rewrite Et in H. injection H as <- <-.
    left. split; reflexivity.
  - destruct (drawingToolsMounted st); [|discriminate].
    injection H as <- <-. right. exists l. split; reflexivity.
  - case_bool_decide; [|discriminate]. injection H as <- <-. exfalso; apply Hne; reflexivity.
  - injection H as <- <-. exfalso; apply Hne; reflexivity.
  - injection H as <- <-. exfalso; apply Hne; reflexivity.
Qed.

Lemma isAnalyzing_changes_only_by_analyze_or_draw_witness :
  app_handle EvClickAnalyze demo_state = Some (set_isAnalyzing true demo_state, []) /\
  ((EvClickAnalyze = EvClickAnalyze /\ isAnalyzing (set_isAnalyzing true demo_state) = true) \/
   (exists l, EvClickAnalyze = EvDrawComplete l /\
      isAnalyzing (set_isAnalyzing true demo_state) = false)).
Proof.
  split; [reflexivity|].
  apply (isAnalyzing_changes_only_by_analyze_or_draw EvClickAnalyze demo_state
           (set_isAnalyzing true demo_state) []); [reflexivity|discriminate].
Defined.

(** Deselecting the route does not stop an analysis: from any state with a
    selected route, clicking Analyze and then choosing the placeholder option
    leaves the drawing tools mounted with no route selected, and raises
    nothing. *)
Theorem analysis_survives_deselection (st : AppState) :
  selectedRoute st <> "" ->
  exists st', run_events [EvClickAnalyze; EvSelectRoute ""] st = Some (st', []) /\
    selectedRoute st' = "" /\ isAnalyzing st' = true /\ drawingToolsMounted st' = true.
Proof.
  intros Hs. destruct (selectedRoute st) as [|c rest] eqn:Es; [congruence|].
  simpl. rewrite Es. unfold handleAnalyzePopulation. rewrite Es. simpl.
  eexists. split; [reflexivity|]. repeat split.
Qed.

Lemma analysis_survives_deselection_witness :
  exists st', run_events [EvClickAnalyze; EvSelectRoute ""] demo_state = Some (st', []) /\
    selectedRoute st' = "" /\ isAnalyzing st' = true /\ drawingToolsMounted st' = true.
Proof. apply analysis_survives_deselection. discriminate. Defined.



(** Adding a route under a new, non-empty name and then deleting it gives
    back the route store as it was and leaves nothing selected. *)
Theorem add_then_delete_restores_routes (nm : string) (src dst : LatLng) (st : AppState) :
  nm <> "" ->
  routes st !! nm = None ->
  routes (handleDeleteRoute (handleAddRoute nm src dst st).1).1 = routes st /\
  selectedRoute (handleDeleteRoute (handleAddRoute nm src dst st).1).1 = "".
Proof.
  intros Hnm Hnone. destruct nm as [|c rest]; [congruence|].
  unfold handleDeleteRoute. simpl. split; [|reflexivity].
  unfold deleteRoute, addRoute. apply delete_insert_id. exact Hnone.
Qed.

Lemma add_then_delete_restores_routes_witness :
  routes (handleDeleteRoute (handleAddRoute "r2" (3, 3)%Q (4, 4)%Q demo_state).1).1
    = routes demo_state /\
  selectedRoute (handleDeleteRoute (handleAddRoute "r2" (3, 3)%Q (4, 4)%Q demo_state).1).1 = "".
Proof.
  apply add_then_delete_restores_routes; [discriminate|reflexivity].
Defined.



(** For each of the three map layers exactly one tile layer is rendered, and
    different layers render different tile sources. *)
Theorem tileLayers_exactly_one (a b : MapLayer) :
  (exists url attribution, tileLayers a = [(url, attribution)]) /\
  (tileLayers a = tileLayers b -> a = b).
Proof.
  split.
  - destruct a; eexists _, _; reflexivity.
  - destruct a, b; simpl; intros H; try reflexivity; discriminate H.
Qed.

Lemma tileLayers_exactly_one_witness :
  (exists url attribution, tileLayers Hybrid = [(url, attribution)]) /\
  (tileLayers Hybrid = tileLayers Hybrid -> Hybrid = Hybrid).
Proof. exact (tileLayers_exactly_one Hybrid Hybrid). Defined.
